(** * Catalyst physics extras: the editor-side synchroniser and its codec

    Embedding of [tools/game_engine_physics.py]: the update callback
    [update_physics_props] that mirrors the panel's fields into the
    custom properties of the active object, and the reading side that
    the engine applies to the exported property bag. *)

From Stdlib Require Import ZArith PrimFloat.
From stdpp Require Import gmap strings list fin_maps.

Local Open Scope Z_scope.
Local Open Scope string_scope.

(** ** Data model *)

(** The items of [cat_phys_body]; an [EnumProperty] holds one of them. *)
Inductive PhysicsBody := BodyNone | Static | Dynamic | Kinematic.

(** The items of [cat_phys_shape]. *)
Inductive PhysicsShape := ShapeNone | Box | Sphere | Capsule | Convex | Mesh.

(** The identifier of an item: what reading the property gives in Python. *)
Definition body_id (b : PhysicsBody) : string :=
  match b with
  | BodyNone => "NONE"
  | Static => "static"
  | Dynamic => "dynamic"
  | Kinematic => "kinematic"
  end.

Definition shape_id (s : PhysicsShape) : string :=
  match s with
  | ShapeNone => "NONE"
  | Box => "box"
  | Sphere => "sphere"
  | Capsule => "capsule"
  | Convex => "convex"
  | Mesh => "mesh"
  end.

(** [CatalystPhysicsSettings]: the property group behind the panel. *)
Record CatalystPhysicsSettings := {
  cat_phys_body : PhysicsBody;
  cat_phys_shape : PhysicsShape;
  cat_phys_mass : float;
  cat_phys_gravity_scale : float;
  cat_phys_linear_damping : float;
  cat_phys_angular_damping : float;
  cat_phys_is_trigger : bool;
  cat_phys_layer : Z;
  cat_phys_mask : Z;
  cat_phys_material : string
}.

(** A scalar stored under a custom-property key. *)
Inductive value :=
| VFloat (f : float)
| VInt (n : Z)
| VBool (b : bool)
| VStr (s : string).

(** The custom properties of an object: a string-keyed dictionary. *)
Abbreviation bag := (gmap string value).

(** An editor object, as far as the callback sees it. *)
Record Object := { props : bag }.

(** [context]: the callback reads [context.object], which may be [None];
    an object, when there is one, is truthy. *)
Record Context := { object : option Object }.

(** ** Dictionary operations of the object, with Python's failures *)

Inductive exn := KeyError (key : string).

(** Outcome of a computation that may fail with an error of type [E]. *)
Definition result (E A : Type) : Type := (E + A)%type.

Definition ret {E A} (a : A) : result E A := inr a.

Definition bind {E A B} (m : result E A) (k : A → result E B) : result E B :=
  match m with
  | inl e => inl e
  | inr a => k a
  end.

Notation "m >>> k" := (bind m k) (at level 61, left associativity).
Notation "'let*' x ':=' m 'in' k" := (bind m (λ x, k))
  (at level 10, x name, m at level 100, k at level 200, only parsing).

(** A Python statement on the object: raises or gives the next state. *)
Abbreviation M := (result exn).

(** [prop_name in obj] *)
Definition contains (prop_name : string) (obj : Object) : bool :=
  bool_decide (is_Some (props obj !! prop_name)).

(** [obj[prop_name] = value] *)
Definition setitem (prop_name : string) (v : value) (obj : Object) : M Object :=
  ret {| props := <[prop_name := v]> (props obj) |}.

(** [del obj[prop_name]]: raises [KeyError] when the key is missing. *)
Definition delitem (prop_name : string) (obj : Object) : M Object :=
  match props obj !! prop_name with
  | Some _ => ret {| props := delete prop_name (props obj) |}
  | None => inl (KeyError prop_name)
  end.

(** ** The update callback *)

(** The helper closure of [update_physics_props]; [obj] is threaded. *)
Definition sync_prop (prop_name : string) (v : value) (condition : bool)
    (obj : Object) : M Object :=
  if condition then setitem prop_name v obj
  else if contains prop_name obj then delitem prop_name obj
  else ret obj.

Definition is_dynamic (self : CatalystPhysicsSettings) : bool :=
  String.eqb (body_id (cat_phys_body self)) "dynamic".

Definition has_physics (self : CatalystPhysicsSettings) : bool :=
  negb (String.eqb (body_id (cat_phys_body self)) "NONE")
  || negb (String.eqb (shape_id (cat_phys_shape self)) "NONE").

(** [len(s) > 0] *)
Definition nonempty (s : string) : bool := (0 <? Z.of_nat (String.length s))%Z.

(** The ten [sync_prop] calls, in the order of the source. *)
Definition sync_all (self : CatalystPhysicsSettings) (obj : Object) : M Object :=
  sync_prop "physics_body" (VStr (body_id (cat_phys_body self)))
    (negb (String.eqb (body_id (cat_phys_body self)) "NONE")) obj
  >>> sync_prop "physics_shape" (VStr (shape_id (cat_phys_shape self)))
    (negb (String.eqb (shape_id (cat_phys_shape self)) "NONE"))
  >>> sync_prop "physics_mass" (VFloat (cat_phys_mass self)) (is_dynamic self)
  >>> sync_prop "physics_gravity_scale" (VFloat (cat_phys_gravity_scale self))
        (is_dynamic self)
  >>> sync_prop "physics_linear_damping" (VFloat (cat_phys_linear_damping self))
        (is_dynamic self)
  >>> sync_prop "physics_angular_damping" (VFloat (cat_phys_angular_damping self))
        (is_dynamic self)
  >>> sync_prop "physics_is_trigger" (VBool (cat_phys_is_trigger self))
        (has_physics self)
  >>> sync_prop "physics_layer" (VInt (cat_phys_layer self)) (has_physics self)
  >>> sync_prop "physics_mask" (VInt (cat_phys_mask self)) (has_physics self)
  >>> sync_prop "physics_material" (VStr (cat_phys_material self))
        (has_physics self && nonempty (cat_phys_material self)).

(** [update_physics_props(self, context)]: returns at once when there is
    no active object, otherwise runs the ten synchronisations on it. *)
Definition update_physics_props (self : CatalystPhysicsSettings)
    (context : Context) : M Context :=
  match object context with
  | None => ret context
  | Some obj => sync_all self obj >>> (λ obj', ret {| object := Some obj' |})
  end.

(** [encode]: the bag the callback derives on an object that carries no
    custom property yet. *)
Definition encode (self : CatalystPhysicsSettings) : bag :=
  match update_physics_props self {| object := Some {| props := ∅ |} |} with
  | inr {| object := Some obj |} => props obj
  | _ => ∅
  end.

(** The ten keys the callback writes or deletes. *)
Definition physics_keys : list string :=
  [ "physics_body"; "physics_shape"; "physics_mass"; "physics_gravity_scale";
    "physics_linear_damping"; "physics_angular_damping"; "physics_is_trigger";
    "physics_layer"; "physics_mask"; "physics_material" ].

(** ** The guards and the derivation, as the schema words them *)

Definition has_body (r : CatalystPhysicsSettings) : bool :=
  match cat_phys_body r with BodyNone => false | _ => true end.

Definition has_shape (r : CatalystPhysicsSettings) : bool :=
  match cat_phys_shape r with ShapeNone => false | _ => true end.

(** "body != None or shape != None" *)
Definition guard_physics (r : CatalystPhysicsSettings) : bool :=
  has_body r || has_shape r.

(** "body == Dynamic" *)
Definition guard_dynamic (r : CatalystPhysicsSettings) : bool :=
  match cat_phys_body r with Dynamic => true | _ => false end.

(** "(body != None or shape != None) and non-empty" *)
Definition guard_material (r : CatalystPhysicsSettings) : bool :=
  guard_physics r && match cat_phys_material r with "" => false | _ => true end.

Definition emit_if (c : bool) (v : value) : option value :=
  if c then Some v else None.

(** Steps 3 to 8 of the derivation, key by key: the value a key is
    emitted with, or [None] when it is not emitted. *)
Definition derivation (r : CatalystPhysicsSettings) (k : string) : option value :=
  if decide (k = "physics_body") then
    emit_if (has_body r) (VStr (body_id (cat_phys_body r)))
  else if decide (k = "physics_shape") then
    emit_if (has_shape r) (VStr (shape_id (cat_phys_shape r)))
  else if decide (k = "physics_mass") then
    emit_if (guard_dynamic r) (VFloat (cat_phys_mass r))
  else if decide (k = "physics_gravity_scale") then
    emit_if (guard_dynamic r) (VFloat (cat_phys_gravity_scale r))
  else if decide (k = "physics_linear_damping") then
    emit_if (guard_dynamic r) (VFloat (cat_phys_linear_damping r))
  else if decide (k = "physics_angular_damping") then
    emit_if (guard_dynamic r) (VFloat (cat_phys_angular_damping r))
  else if decide (k = "physics_is_trigger") then
    emit_if (guard_physics r) (VBool (cat_phys_is_trigger r))
  else if decide (k = "physics_layer") then
    emit_if (guard_physics r) (VInt (cat_phys_layer r))
  else if decide (k = "physics_mask") then
    emit_if (guard_physics r) (VInt (cat_phys_mask r))
  else if decide (k = "physics_material") then
    emit_if (guard_material r) (VStr (cat_phys_material r))
  else None.

(** The constraints of the schema's table: mass > 0, dampings ≥ 0,
    layer and mask ≥ 0. *)
Definition valid_record (r : CatalystPhysicsSettings) : Prop :=
  PrimFloat.ltb 0%float (cat_phys_mass r) = true
  ∧ PrimFloat.leb 0%float (cat_phys_linear_damping r) = true
  ∧ PrimFloat.leb 0%float (cat_phys_angular_damping r) = true
  ∧ (0 ≤ cat_phys_layer r)%Z
  ∧ (0 ≤ cat_phys_mask r)%Z.

(** ** The reading side *)

(** Modelled from the spec: the [PhysicsExtras] record of the schema's
    table, which the engine reads a bag into. *)
Record PhysicsExtras := {
  body : PhysicsBody;
  shape : PhysicsShape;
  mass : float;
  gravity_scale : float;
  linear_damping : float;
  angular_damping : float;
  is_trigger : bool;
  layer : Z;
  mask : Z;
  material : string
}.

(** Modelled from the spec: the defaults of the schema's table, which are
    the defaults of the property group; the table names none for the
    material, which is the empty string in the property group and in the
    schema's round-trip example. *)
Definition default_extras : PhysicsExtras :=
  {| body := BodyNone; shape := ShapeNone;
     mass := 1%float; gravity_scale := 1%float;
     linear_damping := 0%float; angular_damping := 0%float;
     is_trigger := false; layer := 1; mask := 1; material := "" |}.

(** Modelled from the spec: the errors of decoding; each names the
    offending key. An unknown enum string is a malformed bag of its own
    kind. Range errors are optional in the schema and left out. *)
Inductive DecodeError :=
| MalformedBag (key : string)
| UnknownEnumValue (key : string).


(** Modelled from the spec: the closed sets of serialized enum strings,
    the identifiers of the items other than [NONE], which is never
    serialized. *)
Definition parse_body (s : string) : option PhysicsBody :=
  if String.eqb s "static" then Some Static
  else if String.eqb s "dynamic" then Some Dynamic
  else if String.eqb s "kinematic" then Some Kinematic
  else None.

Definition parse_shape (s : string) : option PhysicsShape :=
  if String.eqb s "box" then Some Box
  else if String.eqb s "sphere" then Some Sphere
  else if String.eqb s "capsule" then Some Capsule
  else if String.eqb s "convex" then Some Convex
  else if String.eqb s "mesh" then Some Mesh
  else None.

(** Modelled from the spec: reading one key, with its default when the
    key is absent and an error naming the key when the value is not of
    the field's kind. *)
Definition get_enum {A} (k : string) (parse : string → option A) (d : A)
    (b : bag) : result DecodeError A :=
  match b !! k with
  | None => ret d
  | Some (VStr s) =>
      match parse s with
      | Some x => ret x
      | None => inl (UnknownEnumValue k)
      end
  | Some _ => inl (MalformedBag k)
  end.

Definition get_float (k : string) (d : float) (b : bag) : result DecodeError float :=
  match b !! k with
  | None => ret d
  | Some (VFloat f) => ret f
  | Some _ => inl (MalformedBag k)
  end.

Definition get_int (k : string) (d : Z) (b : bag) : result DecodeError Z :=
  match b !! k with
  | None => ret d
  | Some (VInt n) => ret n
  | Some _ => inl (MalformedBag k)
  end.

Definition get_bool (k : string) (d : bool) (b : bag) : result DecodeError bool :=
  match b !! k with
  | None => ret d
  | Some (VBool x) => ret x
  | Some _ => inl (MalformedBag k)
  end.

Definition get_string (k : string) (d : string) (b : bag) : result DecodeError string :=
  match b !! k with
  | None => ret d
  | Some (VStr s) => ret s
  | Some _ => inl (MalformedBag k)
  end.

(** Modelled from the spec: the engine-side [decode] of the property bag,
    which the sources do not contain. Every key is read on its own: an
    absent key gives the documented default, a value of the wrong scalar
    kind gives [MalformedBag], an enum string outside the closed set gives
    [UnknownEnumValue]; the first offending key, in the order of the
    schema's table, is the one reported. Ranges and cross-field
    consistency are not checked. *)
Definition decode (b : bag) : result DecodeError PhysicsExtras :=
  let* bo := get_enum "physics_body" parse_body (body default_extras) b in
  let* sh := get_enum "physics_shape" parse_shape (shape default_extras) b in
  let* ma := get_float "physics_mass" (mass default_extras) b in
  let* gs := get_float "physics_gravity_scale" (gravity_scale default_extras) b in
  let* ld := get_float "physics_linear_damping" (linear_damping default_extras) b in
  let* ad := get_float "physics_angular_damping" (angular_damping default_extras) b in
  let* tr := get_bool "physics_is_trigger" (is_trigger default_extras) b in
  let* la := get_int "physics_layer" (layer default_extras) b in
  let* mk := get_int "physics_mask" (mask default_extras) b in
  let* mt := get_string "physics_material" (material default_extras) b in
  ret {| body := bo; shape := sh; mass := ma; gravity_scale := gs;
         linear_damping := ld; angular_damping := ad; is_trigger := tr;
         layer := la; mask := mk; material := mt |}.

(** Modelled from the spec: the scalar kind a key's value must have. *)
Definition kind_ok (k : string) (v : value) : bool :=
  if decide (k = "physics_body") then
    match v with VStr s => bool_decide (is_Some (parse_body s)) | _ => false end
  else if decide (k = "physics_shape") then
    match v with VStr s => bool_decide (is_Some (parse_shape s)) | _ => false end
  else if decide (k ∈ ["physics_mass"; "physics_gravity_scale";
                       "physics_linear_damping"; "physics_angular_damping"]) then
    match v with VFloat _ => true | _ => false end
  else if decide (k = "physics_is_trigger") then
    match v with VBool _ => true | _ => false end
  else if decide (k ∈ ["physics_layer"; "physics_mask"]) then
    match v with VInt _ => true | _ => false end
  else if decide (k = "physics_material") then
    match v with VStr _ => true | _ => false end
  else true.

(** A structurally valid bag: each of the ten keys that is present holds
    a value of its kind, the enum keys a string of their closed sets. *)
Definition structurally_valid (b : bag) : bool :=
  forallb (λ k, match b !! k with None => true | Some v => kind_ok k v end)
    physics_keys.




(** ** Vocabulary of the statements *)

(** The context whose active object is [obj]. *)
Definition active (obj : Object) : Context := {| object := Some obj |}.

(** Key [k] is in [b] with value [v] exactly when [P] holds. *)
Definition emitted_iff (P : Prop) (b : bag) (k : string) (v : value) : Prop :=
  (P → b !! k = Some v) ∧ (¬ P → b !! k = None).

(** A decoded field [x] is the record's [y] when the field's guard [P]
    holds, and the default [d] when it does not. *)
Definition restricted {A} (P : Prop) (x y d : A) : Prop :=
  (P → x = y) ∧ (¬ P → x = d).

(** "body != None or shape != None", on the record. *)
Definition participates (r : CatalystPhysicsSettings) : Prop :=
  cat_phys_body r ≠ BodyNone ∨ cat_phys_shape r ≠ ShapeNone.

(** The four keys of a dynamic body are in [b], each with the value of
    its field, exactly when the body is [Dynamic]. *)
Definition dynamic_keys (r : CatalystPhysicsSettings) (b : bag) : Prop :=
  emitted_iff (cat_phys_body r = Dynamic) b
    "physics_mass" (VFloat (cat_phys_mass r))
  ∧ emitted_iff (cat_phys_body r = Dynamic) b
    "physics_gravity_scale" (VFloat (cat_phys_gravity_scale r))
  ∧ emitted_iff (cat_phys_body r = Dynamic) b
    "physics_linear_damping" (VFloat (cat_phys_linear_damping r))
  ∧ emitted_iff (cat_phys_body r = Dynamic) b
    "physics_angular_damping" (VFloat (cat_phys_angular_damping r)).

(** The three collision keys are in [b], each with the value of its
    field, exactly when the body or the shape is not [None]. *)
Definition collision_keys (r : CatalystPhysicsSettings) (b : bag) : Prop :=
  emitted_iff (participates r) b
    "physics_is_trigger" (VBool (cat_phys_is_trigger r))
  ∧ emitted_iff (participates r) b "physics_layer" (VInt (cat_phys_layer r))
  ∧ emitted_iff (participates r) b "physics_mask" (VInt (cat_phys_mask r)).

(** The material key is in [b], with the material string, exactly when
    the body or the shape is not [None] and the string is not empty. *)
Definition material_key (r : CatalystPhysicsSettings) (b : bag) : Prop :=
  emitted_iff (participates r ∧ cat_phys_material r ≠ "") b
    "physics_material" (VStr (cat_phys_material r)).

(** The enum value [None] is represented in [b] by the absence of the
    key, and its identifier is not what the key holds. *)
Definition none_by_absence (r : CatalystPhysicsSettings) (b : bag) : Prop :=
  (b !! "physics_body" = None ↔ cat_phys_body r = BodyNone)
  ∧ (b !! "physics_shape" = None ↔ cat_phys_shape r = ShapeNone)
  ∧ b !! "physics_body" ≠ Some (VStr (body_id BodyNone))
  ∧ b !! "physics_shape" ≠ Some (VStr (shape_id ShapeNone)).

(** [e] is [r] restricted to its meaningful fields: equal to [r] on a
    field whose guard holds, the default on a field whose guard fails.
    Body and shape carry no guard. *)
Definition meaningful_fields (r : CatalystPhysicsSettings) (e : PhysicsExtras) : Prop :=
  body e = cat_phys_body r
  ∧ shape e = cat_phys_shape r
  ∧ restricted (cat_phys_body r = Dynamic)
      (mass e) (cat_phys_mass r) (mass default_extras)
  ∧ restricted (cat_phys_body r = Dynamic)
      (gravity_scale e) (cat_phys_gravity_scale r) (gravity_scale default_extras)
  ∧ restricted (cat_phys_body r = Dynamic)
      (linear_damping e) (cat_phys_linear_damping r) (linear_damping default_extras)
  ∧ restricted (cat_phys_body r = Dynamic)
      (angular_damping e) (cat_phys_angular_damping r) (angular_damping default_extras)
  ∧ restricted (participates r)
      (is_trigger e) (cat_phys_is_trigger r) (is_trigger default_extras)
  ∧ restricted (participates r) (layer e) (cat_phys_layer r) (layer default_extras)
  ∧ restricted (participates r) (mask e) (cat_phys_mask r) (mask default_extras)
  ∧ restricted (participates r ∧ cat_phys_material r ≠ "")
      (material e) (cat_phys_material r) (material default_extras).

(** What [decode] gives on the bag of [r], field by field. *)
Definition restrict (r : CatalystPhysicsSettings) : PhysicsExtras :=
  {| body := cat_phys_body r;
     shape := cat_phys_shape r;
     mass := if guard_dynamic r then cat_phys_mass r else mass default_extras;
     gravity_scale :=
       if guard_dynamic r then cat_phys_gravity_scale r
       else gravity_scale default_extras;
     linear_damping :=
       if guard_dynamic r then cat_phys_linear_damping r
       else linear_damping default_extras;
     angular_damping :=
       if guard_dynamic r then cat_phys_angular_damping r
       else angular_damping default_extras;
     is_trigger :=
       if guard_physics r then cat_phys_is_trigger r
       else is_trigger default_extras;
     layer := if guard_physics r then cat_phys_layer r else layer default_extras;
     mask := if guard_physics r then cat_phys_mask r else mask default_extras;
     material :=
       if guard_material r then cat_phys_material r
       else material default_extras |}.

(** Every key absent from [b] is read as its default in [e]. *)
Definition defaults_where_absent (b : bag) (e : PhysicsExtras) : Prop :=
  (b !! "physics_body" = None → body e = BodyNone)
  ∧ (b !! "physics_shape" = None → shape e = ShapeNone)
  ∧ (b !! "physics_mass" = None → mass e = 1%float)
  ∧ (b !! "physics_gravity_scale" = None → gravity_scale e = 1%float)
  ∧ (b !! "physics_linear_damping" = None → linear_damping e = 0%float)
  ∧ (b !! "physics_angular_damping" = None → angular_damping e = 0%float)
  ∧ (b !! "physics_is_trigger" = None → is_trigger e = false)
  ∧ (b !! "physics_layer" = None → layer e = 1%Z)
  ∧ (b !! "physics_mask" = None → mask e = 1%Z)
  ∧ (b !! "physics_material" = None → material e = "").

(** The records and bags of the schema's examples. [0x1.999999999999ap-4]
    is the double nearest to 0.1. *)
Definition dynamic_box : CatalystPhysicsSettings :=
  {| cat_phys_body := Dynamic; cat_phys_shape := Box;
     cat_phys_mass := 2.5%float; cat_phys_gravity_scale := 1%float;
     cat_phys_linear_damping := 0x1.999999999999ap-4%float;
     cat_phys_angular_damping := 0%float;
     cat_phys_is_trigger := false; cat_phys_layer := 1; cat_phys_mask := 1;
     cat_phys_material := "" |}.

Definition static_sphere : CatalystPhysicsSettings :=
  {| cat_phys_body := Static; cat_phys_shape := Sphere;
     cat_phys_mass := 99%float; cat_phys_gravity_scale := 1%float;
     cat_phys_linear_damping := 0%float; cat_phys_angular_damping := 0%float;
     cat_phys_is_trigger := false; cat_phys_layer := 1; cat_phys_mask := 1;
     cat_phys_material := "" |}.

Definition with_material (r : CatalystPhysicsSettings) (s : string) :
    CatalystPhysicsSettings :=
  {| cat_phys_body := cat_phys_body r; cat_phys_shape := cat_phys_shape r;
     cat_phys_mass := cat_phys_mass r;
     cat_phys_gravity_scale := cat_phys_gravity_scale r;
     cat_phys_linear_damping := cat_phys_linear_damping r;
     cat_phys_angular_damping := cat_phys_angular_damping r;
     cat_phys_is_trigger := cat_phys_is_trigger r;
     cat_phys_layer := cat_phys_layer r; cat_phys_mask := cat_phys_mask r;
     cat_phys_material := s |}.

(** A record without body and without shape; the other fields are free. *)
Definition no_physics (m g ld ad : float) (tr : bool) (la mk : Z) (mt : string) :
    CatalystPhysicsSettings :=
  {| cat_phys_body := BodyNone; cat_phys_shape := ShapeNone;
     cat_phys_mass := m; cat_phys_gravity_scale := g;
     cat_phys_linear_damping := ld; cat_phys_angular_damping := ad;
     cat_phys_is_trigger := tr; cat_phys_layer := la;
     cat_phys_mask := mk; cat_phys_material := mt |}.

Definition mesh_only : bag := {[ "physics_shape" := VStr "mesh" ]}.



(** A bag left over from a dynamic body, with a key of another add-on. *)
Definition stale_bag : bag :=
  <["export_name" := VStr "crate"]> (<["physics_material" := VInt 7]>
    (encode dynamic_box)).

(** ** What the callback does to the dictionary *)

(** One synchronisation on the dictionary itself: set or remove. *)
Definition put (k : string) (v : value) (c : bool) (m : bag) : bag :=
  if c then <[k := v]> m else delete k m.

Definition synced (self : CatalystPhysicsSettings) (m : bag) : bag :=
  put "physics_material" (VStr (cat_phys_material self))
    (has_physics self && nonempty (cat_phys_material self))
  (put "physics_mask" (VInt (cat_phys_mask self)) (has_physics self)
  (put "physics_layer" (VInt (cat_phys_layer self)) (has_physics self)
  (put "physics_is_trigger" (VBool (cat_phys_is_trigger self)) (has_physics self)
  (put "physics_angular_damping" (VFloat (cat_phys_angular_damping self))
    (is_dynamic self)
  (put "physics_linear_damping" (VFloat (cat_phys_linear_damping self))
    (is_dynamic self)
  (put "physics_gravity_scale" (VFloat (cat_phys_gravity_scale self))
    (is_dynamic self)
  (put "physics_mass" (VFloat (cat_phys_mass self)) (is_dynamic self)
  (put "physics_shape" (VStr (shape_id (cat_phys_shape self)))
    (negb (String.eqb (shape_id (cat_phys_shape self)) "NONE"))
  (put "physics_body" (VStr (body_id (cat_phys_body self)))
    (negb (String.eqb (body_id (cat_phys_body self)) "NONE")) m))))))))).

(** ** The panel *)

(** What [draw] puts into a layout: [layout.prop], [layout.separator],
    [layout.label], and the sub-layouts [layout.box] and [layout.row]
    with what was put into them. *)
#[local] Set Warnings "-register-all".
Inductive ui :=
| UIProp (name : string) (text : option string)
| UISeparator
| UILabel (text : string)
| UIBox (children : list ui)
| UIRow (children : list ui).

(** Reading an attribute that the object does not have. *)
Inductive attr_exn := AttributeError (attr : string).

(** [OBJECT_PT_CatalystPhysics.draw] in an editor where [register] has
    put the pointer property on the object type; [catalyst_physics] is
    its value on each object. The active object is read without a test:
    on [None] the attribute access raises. [panel_draw] below adds the
    editor in which the attribute is not set. *)
Definition draw (catalyst_physics : Object → CatalystPhysicsSettings)
    (context : Context) : result attr_exn (list ui) :=
  match object context with
  | None => inl (AttributeError "catalyst_physics")
  | Some obj =>
      let props := catalyst_physics obj in
      let has_body := negb (String.eqb (body_id (cat_phys_body props)) "NONE") in
      let has_shape := negb (String.eqb (shape_id (cat_phys_shape props)) "NONE") in
      ret ([ UIProp "cat_phys_body" None; UIProp "cat_phys_shape" None;
             UISeparator ]
           ++ (if has_body || has_shape then
                 (if String.eqb (body_id (cat_phys_body props)) "dynamic" then
                    [ UIBox [ UILabel "Dynamics";
                              UIProp "cat_phys_mass" None;
                              UIProp "cat_phys_gravity_scale" None;
                              UIRow [ UIProp "cat_phys_linear_damping"
                                        (Some "Lin Damping");
                                      UIProp "cat_phys_angular_damping"
                                        (Some "Ang Damping") ] ] ]
                  else [])
                 ++ [ UIBox [ UILabel "Collision Settings";
                              UIProp "cat_phys_is_trigger" None;
                              UIRow [ UIProp "cat_phys_layer" (Some "Layer");
                                      UIProp "cat_phys_mask" (Some "Mask") ];
                              UIProp "cat_phys_material" None ] ]
               else []))%list
  end.

(** The fields a piece of layout lets the user edit, in drawing order. *)
Fixpoint fields (u : ui) : list string :=
  match u with
  | UIProp name _ => [name]
  | UISeparator | UILabel _ => []
  | UIBox children | UIRow children =>
      (fix go (l : list ui) : list string :=
         match l with
         | [] => []
         | c :: l' => (fields c ++ go l')%list
         end) children
  end.

Definition all_fields (l : list ui) : list string := flat_map fields l.

(** The field each key is synchronised from, as the [sync_prop] calls of
    the callback pair them; first the two that are always drawn, then the
    seven whose widget is conditional, then the material. *)
Definition enum_fields : list (string * string) :=
  [ ("physics_body", "cat_phys_body"); ("physics_shape", "cat_phys_shape") ].

Definition guarded_fields : list (string * string) :=
  [ ("physics_mass", "cat_phys_mass");
    ("physics_gravity_scale", "cat_phys_gravity_scale");
    ("physics_linear_damping", "cat_phys_linear_damping");
    ("physics_angular_damping", "cat_phys_angular_damping");
    ("physics_is_trigger", "cat_phys_is_trigger");
    ("physics_layer", "cat_phys_layer");
    ("physics_mask", "cat_phys_mask") ].

Definition material_field : string * string :=
  ("physics_material", "cat_phys_material").

Definition key_fields : list (string * string) :=
  (enum_fields ++ guarded_fields ++ [material_field])%list.

(** ** Registration *)

(** [classes], by name. *)
Definition classes : list string :=
  [ "CatalystPhysicsSettings"; "OBJECT_PT_CatalystPhysics" ].

(** The part of the editor that registration changes: the registered
    classes, and the type of [bpy.types.Object.catalyst_physics] when that
    attribute is set. *)
Record Registry := {
  registered : gset string;
  object_attr : option string
}.

Inductive bpy_exn :=
| AlreadyRegistered (cls : string)
| NotRegistered (cls : string)
| MissingAttribute (attr : string).

(** A statement on the registry either completes or raises; the registry
    it has reached is kept in both cases. *)
Inductive outcome :=
| Done (s : Registry)
| Raised (e : bpy_exn) (s : Registry).

(** [bpy.utils.register_class(cls)]: refuses a class that is registered. *)
Definition register_class (cls : string) (s : Registry) : outcome :=
  if decide (cls ∈ registered s) then Raised (AlreadyRegistered cls) s
  else Done {| registered := {[cls]} ∪ registered s;
               object_attr := object_attr s |}.

(** [bpy.utils.unregister_class(cls)]: refuses a class that is not
    registered. *)
Definition unregister_class (cls : string) (s : Registry) : outcome :=
  if decide (cls ∈ registered s) then
    Done {| registered := registered s ∖ {[cls]};
            object_attr := object_attr s |}
  else Raised (NotRegistered cls) s.

(** [for cls in l: f(cls)]: stops at the first call that raises. *)
Fixpoint for_each (f : string → Registry → outcome) (l : list string)
    (s : Registry) : outcome :=
  match l with
  | [] => Done s
  | cls :: l' =>
      match f cls s with
      | Done s' => for_each f l' s'
      | Raised e s' => Raised e s'
      end
  end.

(** [register()], for a tuple of classes [cls]: the classes in order,
    then the pointer property to the property group. *)
Definition register_all (cls : list string) (s : Registry) : outcome :=
  match for_each register_class cls s with
  | Done s' =>
      Done {| registered := registered s';
              object_attr := Some "CatalystPhysicsSettings" |}
  | Raised e s' => Raised e s'
  end.

(** [unregister()]: the classes in reverse order, then
    [del bpy.types.Object.catalyst_physics]. *)
Definition unregister_all (cls : list string) (s : Registry) : outcome :=
  match for_each unregister_class (reverse cls) s with
  | Done s' =>
      match object_attr s' with
      | Some _ => Done {| registered := registered s'; object_attr := None |}
      | None => Raised (MissingAttribute "catalyst_physics") s'
      end
  | Raised e s' => Raised e s'
  end.

Definition register : Registry → outcome := register_all classes.

Definition unregister : Registry → outcome := unregister_all classes.

(** An editor with both classes registered but without the attribute. *)
Definition attr_lost : Registry :=
  {| registered := list_to_set classes; object_attr := None |}.

(** The editor before the add-on is enabled. *)
Definition fresh_registry : Registry :=
  {| registered := ∅; object_attr := None |}.

(** An editor in which the panel class alone is registered. *)
Definition panel_only : Registry :=
  {| registered := {[ "OBJECT_PT_CatalystPhysics" ]}; object_attr := None |}.

(** The registry a statement has reached, completed or not. *)
Definition state_of (o : outcome) : Registry :=
  match o with
  | Done s => s
  | Raised _ s => s
  end.

(** [OBJECT_PT_CatalystPhysics.draw] in an editor with registry [s]:
    [obj.catalyst_physics] is found on the object type, where only
    [register] puts it; while it is not set the access raises on an
    active object too. *)
Definition panel_draw (s : Registry)
    (catalyst_physics : Object → CatalystPhysicsSettings)
    (context : Context) : result attr_exn (list ui) :=
  match object context, object_attr s with
  | Some _, None => inl (AttributeError "catalyst_physics")
  | _, _ => draw catalyst_physics context
  end.

(** ** Vocabulary of the further statements *)

(** The number of keys the callback emits for [r], guard by guard. *)
Definition key_count (r : CatalystPhysicsSettings) : nat :=
  ((if has_body r then 1 else 0) + (if has_shape r then 1 else 0)
   + (if guard_dynamic r then 4 else 0) + (if guard_physics r then 3 else 0)
   + (if guard_material r then 1 else 0))%nat.

(** Two records agree on every field that is exported for them. *)
Definition agree (r1 r2 : CatalystPhysicsSettings) : Prop :=
  cat_phys_body r1 = cat_phys_body r2
  ∧ cat_phys_shape r1 = cat_phys_shape r2
  ∧ (cat_phys_body r1 = Dynamic →
       cat_phys_mass r1 = cat_phys_mass r2
       ∧ cat_phys_gravity_scale r1 = cat_phys_gravity_scale r2
       ∧ cat_phys_linear_damping r1 = cat_phys_linear_damping r2
       ∧ cat_phys_angular_damping r1 = cat_phys_angular_damping r2)
  ∧ (participates r1 →
       cat_phys_is_trigger r1 = cat_phys_is_trigger r2
       ∧ cat_phys_layer r1 = cat_phys_layer r2
       ∧ cat_phys_mask r1 = cat_phys_mask r2
       ∧ cat_phys_material r1 = cat_phys_material r2).

(** What the keys of a bag imply about each other. *)
Definition key_dependencies (b : bag) : Prop :=
  Forall (λ k, is_Some (b !! k) → b !! "physics_body" = Some (VStr "dynamic"))
    [ "physics_mass"; "physics_gravity_scale"; "physics_linear_damping";
      "physics_angular_damping" ]
  ∧ (is_Some (b !! "physics_material") ∨ is_Some (b !! "physics_body")
     ∨ is_Some (b !! "physics_shape") →
     Forall (λ k, is_Some (b !! k))
       [ "physics_is_trigger"; "physics_layer"; "physics_mask" ])
  ∧ (is_Some (b !! "physics_is_trigger") ∨ is_Some (b !! "physics_layer")
     ∨ is_Some (b !! "physics_mask") →
     is_Some (b !! "physics_body") ∨ is_Some (b !! "physics_shape")).

(** The prior dictionary without the ten keys. *)
Definition foreign (m : bag) : bag :=
  filter (λ kv, kv.1 ∉ physics_keys) m.

(** The static sphere with another mass: a field that is not exported. *)
Definition heavy_sphere : CatalystPhysicsSettings :=
  {| cat_phys_body := Static; cat_phys_shape := Sphere;
     cat_phys_mass := 5%float; cat_phys_gravity_scale := 1%float;
     cat_phys_linear_damping := 0%float; cat_phys_angular_damping := 0%float;
     cat_phys_is_trigger := false; cat_phys_layer := 1; cat_phys_mask := 1;
     cat_phys_material := "" |}.

Lemma sync_prop_ok k v c obj :
  sync_prop k v c obj = inr {| props := put k v c (props obj) |}.
Proof.
  destruct obj as [m]. unfold sync_prop, put, contains, setitem, delitem; simpl.
  destruct c; [done|].
  destruct (m !! k) as [w|] eqn:E.
  - rewrite bool_decide_eq_true_2; [done | by eexists].
  - rewrite bool_decide_eq_false_2; [| by intros [? ?]].
    unfold ret. by rewrite delete_id.
Qed.

Lemma sync_all_ok self obj :
  sync_all self obj = inr {| props := synced self (props obj) |}.
Proof.
  unfold sync_all, synced.
  repeat (rewrite sync_prop_ok; cbn [bind props]).
  reflexivity.
Qed.

Lemma update_physics_props_ok self obj :
  update_physics_props self {| object := Some obj |}
  = inr {| object := Some {| props := synced self (props obj) |} |}.
Proof. unfold update_physics_props; simpl. by rewrite sync_all_ok. Qed.

Lemma encode_synced self : encode self = synced self ∅.
Proof. unfold encode. by rewrite update_physics_props_ok. Qed.

Lemma lookup_put k v c m k' :
  put k v c m !! k' =
  if decide (k = k') then (if c then Some v else None) else m !! k'.
Proof.
  unfold put. destruct c.
  - by rewrite lookup_insert.
  - by rewrite lookup_delete.
Qed.


(** ** The guards of the source are the guards of the schema *)

Lemma has_body_eq r :
  negb (String.eqb (body_id (cat_phys_body r)) "NONE") = has_body r.
Proof. unfold has_body. by destruct (cat_phys_body r). Qed.

Lemma has_shape_eq r :
  negb (String.eqb (shape_id (cat_phys_shape r)) "NONE") = has_shape r.
Proof. unfold has_shape. by destruct (cat_phys_shape r). Qed.

Lemma is_dynamic_eq r : is_dynamic r = guard_dynamic r.
Proof. unfold is_dynamic, guard_dynamic. by destruct (cat_phys_body r). Qed.

Lemma has_physics_eq r : has_physics r = guard_physics r.
Proof. unfold has_physics, guard_physics. by rewrite has_body_eq, has_shape_eq. Qed.

Lemma nonempty_eq s : nonempty s = match s with "" => false | _ => true end.
Proof. unfold nonempty. destruct s; [done|]. simpl String.length. apply Z.ltb_lt. lia. Qed.

Lemma material_guard_eq r :
  has_physics r && nonempty (cat_phys_material r) = guard_material r.
Proof. unfold guard_material. by rewrite has_physics_eq, nonempty_eq. Qed.

Lemma guard_dynamic_spec r : guard_dynamic r = true ↔ cat_phys_body r = Dynamic.
Proof. unfold guard_dynamic. by destruct (cat_phys_body r). Qed.

Lemma guard_physics_spec r :
  guard_physics r = true ↔ cat_phys_body r ≠ BodyNone ∨ cat_phys_shape r ≠ ShapeNone.
Proof.
  unfold guard_physics, has_body, has_shape.
  destruct (cat_phys_body r), (cat_phys_shape r); simpl; split;
    solve [ done | intros [?|?]; done | intros _; first [by left | by right] ].
Qed.

(** ** Lookups in the synchronised dictionary *)

Ltac decide_keys :=
  repeat first [ rewrite decide_True by done | rewrite decide_False by done ].

Lemma synced_lookup_key r m k :
  k ∈ physics_keys → synced r m !! k = derivation r k.
Proof.
  intros Hk. unfold synced. rewrite !lookup_put.
  rewrite has_body_eq, has_shape_eq, !is_dynamic_eq, !material_guard_eq,
    !has_physics_eq.
  unfold derivation, emit_if, physics_keys in *.
  repeat (apply elem_of_cons in Hk as [-> | Hk]); [..| by apply elem_of_nil in Hk];
    decide_keys; reflexivity.
Qed.

Lemma synced_lookup_other r m k :
  k ∉ physics_keys → synced r m !! k = m !! k.
Proof.
  intros Hk. unfold synced. rewrite !lookup_put.
  unfold physics_keys in Hk.
  repeat (apply not_elem_of_cons in Hk as [? Hk]).
  by decide_keys.
Qed.

Lemma derivation_other r k : k ∉ physics_keys → derivation r k = None.
Proof.
  intros Hk. unfold derivation, physics_keys in *.
  repeat (apply not_elem_of_cons in Hk as [? Hk]).
  by decide_keys.
Qed.

Lemma encode_lookup r k : encode r !! k = derivation r k.
Proof.
  rewrite encode_synced. destruct (decide (k ∈ physics_keys)) as [Hk|Hk].
  - by apply synced_lookup_key.
  - by rewrite synced_lookup_other, derivation_other.
Qed.

Lemma guard_material_spec r :
  guard_material r = true ↔ participates r ∧ cat_phys_material r ≠ "".
Proof.
  unfold guard_material, participates.
  rewrite andb_true_iff, guard_physics_spec.
  by destruct (cat_phys_material r); split; intros [? ?].
Qed.

Lemma emitted_iff_intro (P : Prop) (c : bool) (b : bag) k v :
  (c = true ↔ P) → b !! k = emit_if c v → emitted_iff P b k v.
Proof.
  intros Hc Hb. unfold emitted_iff. rewrite Hb.
  destruct c; simpl; split; intros HP; try done.
  - destruct HP. by apply Hc.
  - apply Hc in HP. discriminate.
Qed.

(** The callback on an active object: it does not raise, and the object
    it leaves carries the synchronised dictionary. *)
Lemma update_active r obj :
  update_physics_props r (active obj)
  = inr (active {| props := synced r (props obj) |}).
Proof. apply update_physics_props_ok. Qed.

Ltac in_keys :=
  match goal with
  | |- ?P => apply (bool_decide_unpack P); vm_compute; exact I
  end.

Ltac key_lookup :=
  rewrite synced_lookup_key by in_keys;
  unfold derivation; decide_keys.

(** ** Which keys are emitted *)

Lemma dynamic_keys_synced r m : dynamic_keys r (synced r m).
Proof.
  unfold dynamic_keys.
  split_and!; (apply (emitted_iff_intro _ (guard_dynamic r));
    [apply guard_dynamic_spec | by key_lookup]).
Qed.

Lemma collision_keys_synced r m : collision_keys r (synced r m).
Proof.
  unfold collision_keys.
  split_and!; (apply (emitted_iff_intro _ (guard_physics r));
    [apply guard_physics_spec | by key_lookup]).
Qed.

Lemma material_key_synced r m : material_key r (synced r m).
Proof.
  apply (emitted_iff_intro _ (guard_material r));
    [apply guard_material_spec | by key_lookup].
Qed.

(** The static sphere of mass 99 encodes to five keys. *)
Example encode_static_sphere :
  encode static_sphere
  = list_to_map
      [ ("physics_body", VStr "static"); ("physics_shape", VStr "sphere");
        ("physics_is_trigger", VBool false);
        ("physics_layer", VInt 1); ("physics_mask", VInt 1) ].
Proof. by vm_compute. Qed.

(** C2. Whatever the object held before, after the callback each of
    [physics_mass], [physics_gravity_scale], [physics_linear_damping] and
    [physics_angular_damping] is present, with the value of its field,
    exactly when the body is [Dynamic]; the same holds of [encode]; and
    the encoding of the static sphere of mass 99 has none of the four. *)
Theorem dynamic_keys_iff_dynamic r obj :
  ∃ obj', update_physics_props r (active obj) = inr (active obj')
    ∧ dynamic_keys r (props obj')
    ∧ dynamic_keys r (encode r)
    ∧ encode static_sphere !! "physics_mass" = None
    ∧ encode static_sphere !! "physics_gravity_scale" = None
    ∧ encode static_sphere !! "physics_linear_damping" = None
    ∧ encode static_sphere !! "physics_angular_damping" = None.
Proof.
  eexists. split; [apply update_active|]. split; [|split].
  - apply dynamic_keys_synced.
  - rewrite encode_synced. apply dynamic_keys_synced.
  - rewrite !encode_lookup. by vm_compute.
Qed.

(** C5. After the callback each of [physics_is_trigger], [physics_layer]
    and [physics_mask] is present, with the value of its field, exactly
    when the body or the shape is not [None]; the same holds of
    [encode]. *)
Theorem collision_keys_iff_has_physics r obj :
  ∃ obj', update_physics_props r (active obj) = inr (active obj')
    ∧ collision_keys r (props obj')
    ∧ collision_keys r (encode r).
Proof.
  eexists. split; [apply update_active|]. split.
  - apply collision_keys_synced.
  - rewrite encode_synced. apply collision_keys_synced.
Qed.

(** C6. After the callback [physics_material] is present, with the
    material string as its value, exactly when the body or the shape is
    not [None] and the string is not empty; the same holds of [encode].
    With the material emptied the key is absent; with the material
    "wood" the key holds "wood" exactly when the record has physics. *)
Theorem material_key_iff_nonempty r obj :
  ∃ obj', update_physics_props r (active obj) = inr (active obj')
    ∧ material_key r (props obj')
    ∧ material_key r (encode r)
    ∧ encode (with_material r "") !! "physics_material" = None
    ∧ emitted_iff (participates r) (encode (with_material r "wood"))
        "physics_material" (VStr "wood").
Proof.
  eexists. split; [apply update_active|]. split_and!.
  - apply material_key_synced.
  - rewrite encode_synced. apply material_key_synced.
  - rewrite encode_lookup. unfold derivation. decide_keys.
    unfold guard_material. simpl. by rewrite andb_false_r.
  - apply (emitted_iff_intro _ (guard_material (with_material r "wood"))).
    + rewrite guard_material_spec. unfold participates. simpl.
      split; [by intros [? _] | by split].
    + rewrite encode_lookup. unfold derivation. by decide_keys.
Qed.

Lemma none_by_absence_synced r m : none_by_absence r (synced r m).
Proof.
  unfold none_by_absence. split_and!; key_lookup; unfold has_body, has_shape.
  - by destruct (cat_phys_body r).
  - by destruct (cat_phys_shape r).
  - by destruct (cat_phys_body r).
  - by destruct (cat_phys_shape r).
Qed.

Lemma derivation_no_physics m g ld ad tr la mk mt k :
  derivation (no_physics m g ld ad tr la mk mt) k = None.
Proof.
  unfold derivation, guard_material, guard_physics. simpl.
  by repeat case_decide.
Qed.

(** C3. A record whose body and shape are both [None] encodes to the
    empty bag, whatever its other eight fields hold, and the callback
    run for it on an object with any prior dictionary leaves none of the
    ten keys. For every record and every prior dictionary,
    [physics_body] (resp. [physics_shape]) is absent after the callback
    exactly when the body (resp. shape) is [None], and the identifier of
    [None] is never the value stored there. *)
Theorem none_none_encodes_empty r obj m g ld ad tr la mk mt :
  encode (no_physics m g ld ad tr la mk mt) = ∅
  ∧ (∃ obj', update_physics_props (no_physics m g ld ad tr la mk mt) (active obj)
             = inr (active obj')
      ∧ Forall (λ k, props obj' !! k = None) physics_keys)
  ∧ ∃ obj', update_physics_props r (active obj) = inr (active obj')
      ∧ none_by_absence r (props obj')
      ∧ none_by_absence r (encode r).
Proof.
  split_and!.
  - apply map_eq. intros k.
    by rewrite encode_lookup, lookup_empty, derivation_no_physics.
  - eexists. split; [apply update_active|].
    apply Forall_forall. intros k Hk. simpl.
    by rewrite synced_lookup_key, derivation_no_physics.
  - eexists. split; [apply update_active|]. split.
    + apply none_by_absence_synced.
    + rewrite encode_synced. apply none_by_absence_synced.
Qed.

(** ** In-place update: the ten keys are determined, the rest is kept *)

(** C4. After the callback on an object with any prior dictionary, a key
    among the ten that the derivation does not emit for the current
    record is absent, also when the prior dictionary had it. *)
Theorem stale_keys_removed r obj k :
  k ∈ physics_keys → derivation r k = None →
  ∃ obj', update_physics_props r (active obj) = inr (active obj')
    ∧ props obj' !! k = None.
Proof.
  intros Hk Hn. eexists. split; [apply update_active|].
  simpl. by rewrite synced_lookup_key.
Qed.

Lemma stale_keys_removed_witness :
  stale_bag !! "physics_mass" = Some (VFloat 2.5)
  ∧ ∃ obj', update_physics_props static_sphere (active {| props := stale_bag |})
            = inr (active obj')
    ∧ props obj' !! "physics_mass" = None.
Proof.
  split; [by vm_compute|].
  apply (stale_keys_removed static_sphere {| props := stale_bag |} "physics_mass").
  - in_keys.
  - reflexivity.
Defined.

(** C9. The callback changes no key outside the ten: such a key is
    present after the update exactly as it was before. *)
Theorem other_keys_untouched r obj k :
  k ∉ physics_keys →
  ∃ obj', update_physics_props r (active obj) = inr (active obj')
    ∧ props obj' !! k = props obj !! k.
Proof.
  intros Hk. eexists. split; [apply update_active|].
  simpl. by rewrite synced_lookup_other.
Qed.

Lemma other_keys_untouched_witness :
  stale_bag !! "export_name" = Some (VStr "crate")
  ∧ ∃ obj', update_physics_props static_sphere (active {| props := stale_bag |})
            = inr (active obj')
    ∧ props obj' !! "export_name" = props {| props := stale_bag |} !! "export_name".
Proof.
  split; [by vm_compute|].
  apply (other_keys_untouched static_sphere {| props := stale_bag |} "export_name").
  in_keys.
Defined.

(** ** No failure *)

(** C10. Without an active object the callback returns the context as it
    is, raising nothing; on no context does it raise. A synchronisation
    whose condition is false removes the key and does not raise, also
    when the key is already absent, where it changes nothing; the
    deletion itself would raise [KeyError] there. *)
Theorem no_object_no_failure r context k v obj :
  update_physics_props r {| object := None |} = inr {| object := None |}
  ∧ (∃ context', update_physics_props r context = inr context')
  ∧ sync_prop k v false obj = inr {| props := delete k (props obj) |}
  ∧ sync_prop k v false {| props := delete k (props obj) |}
    = inr {| props := delete k (props obj) |}
  ∧ delitem k {| props := delete k (props obj) |} = inl (KeyError k).
Proof.
  split_and!.
  - reflexivity.
  - destruct context as [[o|]]; [|by eexists].
    eexists. apply update_physics_props_ok.
  - apply sync_prop_ok.
  - rewrite sync_prop_ok. unfold put. simpl. by rewrite delete_delete_eq.
  - unfold delitem. simpl. by rewrite lookup_delete_eq.
Qed.

(** ** Decoding what was encoded *)

Lemma restricted_intro {A} (P : Prop) (c : bool) (y d : A) :
  (c = true ↔ P) → restricted P (if c then y else d) y d.
Proof.
  intros Hc. unfold restricted. destruct c; split; intros HP; try done.
  - destruct HP. by apply Hc.
  - apply Hc in HP. discriminate.
Qed.

Lemma meaningful_fields_restrict r : meaningful_fields r (restrict r).
Proof.
  unfold meaningful_fields, restrict; simpl.
  split_and!; try reflexivity;
    first [ apply restricted_intro, guard_dynamic_spec
          | apply restricted_intro, guard_physics_spec
          | apply restricted_intro, guard_material_spec ].
Qed.

(** [decode] reads the ten keys and nothing else. *)
Lemma decode_ext (b1 b2 : bag) :
  (∀ k, k ∈ physics_keys → b1 !! k = b2 !! k) → decode b1 = decode b2.
Proof.
  intros H. unfold decode, get_enum, get_float, get_int, get_bool, get_string.
  by rewrite !H by in_keys.
Qed.

Lemma decode_encode r : decode (encode r) = inr (restrict r).
Proof.
  unfold decode, get_enum, get_float, get_int, get_bool, get_string.
  rewrite !encode_lookup. unfold derivation. decide_keys.
  unfold restrict, guard_material, guard_physics, guard_dynamic, has_body,
    has_shape.
  destruct r as [bo sh ma gs ld ad tr la mk mt]; simpl.
  destruct bo, sh, mt; reflexivity.
Qed.

Lemma decode_synced r m : decode (synced r m) = inr (restrict r).
Proof.
  rewrite <- decode_encode. apply decode_ext. intros k Hk.
  by rewrite encode_lookup, synced_lookup_key.
Qed.

(** The round-trip example of the schema: the nine keys of a dynamic box
    without material, and the record read back from them. *)
Example encode_dynamic_box :
  encode dynamic_box
  = list_to_map
      [ ("physics_body", VStr "dynamic"); ("physics_shape", VStr "box");
        ("physics_mass", VFloat 2.5); ("physics_gravity_scale", VFloat 1);
        ("physics_linear_damping", VFloat 0x1.999999999999ap-4);
        ("physics_angular_damping", VFloat 0);
        ("physics_is_trigger", VBool false);
        ("physics_layer", VInt 1); ("physics_mask", VInt 1) ].
Proof. by vm_compute. Qed.

Example decode_dynamic_box :
  decode (encode dynamic_box)
  = inr {| body := Dynamic; shape := Box; mass := 2.5; gravity_scale := 1;
           linear_damping := 0x1.999999999999ap-4; angular_damping := 0;
           is_trigger := false; layer := 1; mask := 1; material := "" |}.
Proof. by vm_compute. Qed.

(** C1. For a record within the constraints of the schema, decoding its
    encoding succeeds and gives the record restricted to its meaningful
    fields: the record's value where the field's guard holds, the
    documented default where it does not. The same is read back from the
    object the callback has updated, whatever it held before. The proof
    makes no use of the constraints. *)
Theorem decode_encode_roundtrip r obj :
  valid_record r →
  ∃ e, decode (encode r) = inr e
    ∧ meaningful_fields r e
    ∧ ∃ obj', update_physics_props r (active obj) = inr (active obj')
        ∧ decode (props obj') = inr e.
Proof.
  intros _. exists (restrict r). split_and!.
  - apply decode_encode.
  - apply meaningful_fields_restrict.
  - eexists. split; [apply update_active|]. apply decode_synced.
Qed.

Lemma decode_encode_roundtrip_witness :
  valid_record dynamic_box
  ∧ ∃ e, decode (encode dynamic_box) = inr e
    ∧ meaningful_fields dynamic_box e
    ∧ ∃ obj', update_physics_props dynamic_box (active {| props := stale_bag |})
              = inr (active obj')
        ∧ decode (props obj') = inr e.
Proof.
  assert (Hv : valid_record dynamic_box).
  { unfold valid_record. split_and!; by vm_compute. }
  split; [exact Hv|].
  exact (decode_encode_roundtrip dynamic_box {| props := stale_bag |} Hv).
Defined.

(** ** Decoding arbitrary bags *)

Lemma get_enum_total {A} k (parse : string → option A) d (b : bag) :
  (∀ v, b !! k = Some v → ∃ s, v = VStr s ∧ is_Some (parse s)) →
  ∃ x, get_enum k parse d b = inr x ∧ (b !! k = None → x = d).
Proof.
  intros H. unfold get_enum. destruct (b !! k) as [v|]; [|by eexists].
  destruct (H v eq_refl) as (s & -> & [x ->]). by eexists.
Qed.

Lemma get_float_total k d (b : bag) :
  (∀ v, b !! k = Some v → ∃ f, v = VFloat f) →
  ∃ x, get_float k d b = inr x ∧ (b !! k = None → x = d).
Proof.
  intros H. unfold get_float. destruct (b !! k) as [v|]; [|by eexists].
  destruct (H v eq_refl) as [f ->]. by eexists.
Qed.

Lemma get_int_total k d (b : bag) :
  (∀ v, b !! k = Some v → ∃ n, v = VInt n) →
  ∃ x, get_int k d b = inr x ∧ (b !! k = None → x = d).
Proof.
  intros H. unfold get_int. destruct (b !! k) as [v|]; [|by eexists].
  destruct (H v eq_refl) as [n ->]. by eexists.
Qed.

Lemma get_bool_total k d (b : bag) :
  (∀ v, b !! k = Some v → ∃ x, v = VBool x) →
  ∃ x, get_bool k d b = inr x ∧ (b !! k = None → x = d).
Proof.
  intros H. unfold get_bool. destruct (b !! k) as [v|]; [|by eexists].
  destruct (H v eq_refl) as [x ->]. by eexists.
Qed.

Lemma get_string_total k d (b : bag) :
  (∀ v, b !! k = Some v → ∃ s, v = VStr s) →
  ∃ x, get_string k d b = inr x ∧ (b !! k = None → x = d).
Proof.
  intros H. unfold get_string. destruct (b !! k) as [v|]; [|by eexists].
  destruct (H v eq_refl) as [s ->]. by eexists.
Qed.

Lemma structurally_valid_key b k v :
  structurally_valid b = true → k ∈ physics_keys → b !! k = Some v →
  kind_ok k v = true.
Proof.
  unfold structurally_valid. rewrite forallb_forall.
  intros H Hk Hv. apply list_elem_of_In in Hk.
  specialize (H k Hk). by rewrite Hv in H.
Qed.

Ltac kind_of_key Hb :=
  let v := fresh "v" in
  let Hv := fresh "Hv" in
  let Hk := fresh "Hk" in
  intros v Hv;
  match type of Hv with
  | _ !! ?k = _ =>
      assert (Hk : kind_ok k v = true)
        by (apply (structurally_valid_key _ k v Hb); [in_keys | exact Hv])
  end;
  destruct v; vm_compute in Hk; try discriminate Hk; eauto.

(** C7. On a structurally valid bag [decode] returns a record, in which
    every field whose key is absent has its documented default. The empty
    bag decodes to the all-default record, with body and shape [None];
    the bag holding only [physics_shape] = "mesh" decodes to the default
    record with shape [Mesh]. *)
Theorem decode_total_with_defaults b :
  structurally_valid b = true →
  (∃ e, decode b = inr e ∧ defaults_where_absent b e)
  ∧ decode ∅ = inr default_extras
  ∧ decode mesh_only
    = inr {| body := BodyNone; shape := Mesh;
             mass := 1; gravity_scale := 1;
             linear_damping := 0; angular_damping := 0;
             is_trigger := false; layer := 1; mask := 1; material := "" |}.
Proof.
  intros Hb. split; [|split; reflexivity].
  destruct (get_enum_total "physics_body" parse_body BodyNone b) as (bo & Ebo & Dbo).
  { intros v Hv.
    assert (Hk : kind_ok "physics_body" v = true)
      by (apply (structurally_valid_key b _ _ Hb); [in_keys | exact Hv]).
    destruct v; try discriminate Hk. eexists; split; [done|].
    by apply bool_decide_eq_true_1 in Hk. }
  destruct (get_enum_total "physics_shape" parse_shape ShapeNone b) as (sh & Esh & Dsh).
  { intros v Hv.
    assert (Hk : kind_ok "physics_shape" v = true)
      by (apply (structurally_valid_key b _ _ Hb); [in_keys | exact Hv]).
    destruct v; try discriminate Hk. eexists; split; [done|].
    by apply bool_decide_eq_true_1 in Hk. }
  destruct (get_float_total "physics_mass" 1 b) as (ma & Ema & Dma);
    [kind_of_key Hb|].
  destruct (get_float_total "physics_gravity_scale" 1 b) as (gs & Egs & Dgs);
    [kind_of_key Hb|].
  destruct (get_float_total "physics_linear_damping" 0 b) as (ld & Eld & Dld);
    [kind_of_key Hb|].
  destruct (get_float_total "physics_angular_damping" 0 b) as (ad & Ead & Dad);
    [kind_of_key Hb|].
  destruct (get_bool_total "physics_is_trigger" false b) as (tr & Etr & Dtr);
    [kind_of_key Hb|].
  destruct (get_int_total "physics_layer" 1 b) as (la & Ela & Dla);
    [kind_of_key Hb|].
  destruct (get_int_total "physics_mask" 1 b) as (mk & Emk & Dmk);
    [kind_of_key Hb|].
  destruct (get_string_total "physics_material" "" b) as (mt & Emt & Dmt);
    [kind_of_key Hb|].
  eexists. split.
  - unfold decode, default_extras; simpl.
    rewrite Ebo, Esh, Ema, Egs, Eld, Ead, Etr, Ela, Emk, Emt. reflexivity.
  - unfold defaults_where_absent; simpl. by split_and!.
Qed.

Lemma decode_total_with_defaults_witness :
  structurally_valid mesh_only = true
  ∧ (∃ e, decode mesh_only = inr e ∧ defaults_where_absent mesh_only e)
  ∧ decode ∅ = inr default_extras
  ∧ decode mesh_only
    = inr {| body := BodyNone; shape := Mesh;
             mass := 1; gravity_scale := 1;
             linear_damping := 0; angular_damping := 0;
             is_trigger := false; layer := 1; mask := 1; material := "" |}.
Proof.
  split; [reflexivity|].
  apply (decode_total_with_defaults mesh_only). reflexivity.
Defined.

Lemma kind_ok_body v :
  kind_ok "physics_body" v
  = match v with VStr s => bool_decide (is_Some (parse_body s)) | _ => false end.
Proof. reflexivity. Qed.

Lemma kind_ok_shape v :
  kind_ok "physics_shape" v
  = match v with VStr s => bool_decide (is_Some (parse_shape s)) | _ => false end.
Proof. reflexivity. Qed.





(** * Further properties of the callback *)

Lemma synced_lookup r m k :
  synced r m !! k = if decide (k ∈ physics_keys) then derivation r k else m !! k.
Proof.
  case_decide.
  - by apply synced_lookup_key.
  - by apply synced_lookup_other.
Qed.

Lemma synced_synced r1 r2 m : synced r2 (synced r1 m) = synced r2 m.
Proof.
  apply map_eq. intros k. rewrite !synced_lookup.
  by destruct (decide (k ∈ physics_keys)).
Qed.

(** The callback overwrites what an earlier run left: running it for
    [r1] and then for [r2] leaves the object that running it for [r2]
    alone leaves, and a second run for the same record changes
    nothing. *)
Theorem update_overwrites r1 r2 obj :
  ∃ obj1 obj2,
    update_physics_props r1 (active obj) = inr (active obj1)
    ∧ update_physics_props r2 (active obj1) = inr (active obj2)
    ∧ update_physics_props r2 (active obj) = inr (active obj2)
    ∧ update_physics_props r2 (active obj2) = inr (active obj2).
Proof.
  exists {| props := synced r1 (props obj) |}, {| props := synced r2 (props obj) |}.
  rewrite !update_active. simpl. by rewrite !synced_synced.
Qed.

Lemma foreign_lookup (m : bag) k :
  foreign m !! k = if decide (k ∈ physics_keys) then None else m !! k.
Proof.
  unfold foreign. case_decide as Hk.
  - apply map_lookup_filter_None. right. intros x _ Hx. by apply Hx.
  - destruct (m !! k) as [x|] eqn:E.
    + by apply map_lookup_filter_Some.
    + apply map_lookup_filter_None. by left.
Qed.

(** The dictionary after the callback is the encoding of the record
    together with the prior dictionary's keys other than the ten; the two
    parts share no key. *)
Theorem update_decomposes r obj :
  ∃ obj', update_physics_props r (active obj) = inr (active obj')
    ∧ props obj' = encode r ∪ foreign (props obj)
    ∧ encode r ##ₘ foreign (props obj).
Proof.
  eexists. split; [apply update_active|]. simpl. split.
  - apply map_eq. intros k.
    rewrite lookup_union, synced_lookup, encode_lookup, foreign_lookup.
    destruct (decide (k ∈ physics_keys)) as [Hk|Hk].
    + by destruct (derivation r k).
    + rewrite derivation_other by done. by destruct (props obj !! k).
  - apply map_disjoint_spec. intros k x y Hx Hy.
    rewrite encode_lookup in Hx. rewrite foreign_lookup in Hy.
    case_decide as Hk; [done|]. by rewrite derivation_other in Hx.
Qed.

(** The encoding is empty only for a record without body and without
    shape. *)
Theorem encode_empty_iff r :
  encode r = ∅ ↔ cat_phys_body r = BodyNone ∧ cat_phys_shape r = ShapeNone.
Proof.
  split.
  - intros H.
    destruct (none_by_absence_synced r ∅) as (Hb & Hs & _).
    rewrite <- encode_synced, H in Hb, Hs. split; [by apply Hb | by apply Hs].
  - intros [Hb Hs]. apply map_eq. intros k.
    rewrite encode_lookup, lookup_empty.
    destruct r as [bo sh ma gs ld ad tr la mk mt]; simpl in *; subst.
    apply derivation_no_physics.
Qed.

(** The number of keys of the encoding, guard by guard: none for a
    record without physics, otherwise between four and ten. *)
Theorem encode_size r :
  size (encode r) = key_count r
  ∧ (key_count r ≤ 10)%nat
  ∧ (if guard_physics r then (4 ≤ key_count r)%nat else key_count r = 0%nat).
Proof.
  rewrite encode_synced.
  destruct r as [bo sh ma gs ld ad tr la mk mt].
  destruct bo, sh, mt; vm_compute; repeat split; repeat constructor.
Qed.

Lemma encode_key_eq r1 r2 k :
  encode r1 = encode r2 → derivation r1 k = derivation r2 k.
Proof. intros H. by rewrite <- !encode_lookup, H. Qed.

Ltac derive_at H k Hk :=
  assert (Hk := encode_key_eq _ _ k H);
  unfold derivation in Hk; revert Hk; decide_keys; intros Hk.

Lemma encode_eq_body r1 r2 :
  encode r1 = encode r2 → cat_phys_body r1 = cat_phys_body r2.
Proof.
  intros H. derive_at H "physics_body" Hk. unfold has_body in *.
  by destruct (cat_phys_body r1), (cat_phys_body r2).
Qed.

Lemma encode_eq_shape r1 r2 :
  encode r1 = encode r2 → cat_phys_shape r1 = cat_phys_shape r2.
Proof.
  intros H. derive_at H "physics_shape" Hk. unfold has_shape in *.
  by destruct (cat_phys_shape r1), (cat_phys_shape r2).
Qed.

Lemma emit_if_true_inj c v w :
  c = true → emit_if c v = emit_if c w → v = w.
Proof. intros ->. simpl. congruence. Qed.

(** Two records have the same encoding exactly when they agree on the
    exported fields: body and shape, the four fields of a dynamic body
    when the body is dynamic, and trigger, layer, mask and material when
    there is a body or a shape. A field that is not exported does not
    show in the encoding. *)
Theorem encode_eq_iff_agree r1 r2 :
  encode r1 = encode r2 ↔ agree r1 r2.
Proof.
  split.
  - intros H.
    assert (Hbo := encode_eq_body _ _ H). assert (Hsh := encode_eq_shape _ _ H).
    unfold agree. split_and!; [done | done | |].
    + intros Hd. apply guard_dynamic_spec in Hd as Hg.
      assert (Hg2 : guard_dynamic r2 = true)
        by (apply guard_dynamic_spec; congruence).
      derive_at H "physics_mass" K1. derive_at H "physics_gravity_scale" K2.
      derive_at H "physics_linear_damping" K3.
      derive_at H "physics_angular_damping" K4.
      rewrite Hg2, <- Hg in K1, K2, K3, K4.
      apply (emit_if_true_inj _ _ _ Hg) in K1, K2, K3, K4.
      split_and!; congruence.
    + intros Hp. apply guard_physics_spec in Hp as Hg.
      assert (Hg2 : guard_physics r2 = true).
      { apply guard_physics_spec. unfold participates in *. by rewrite <- Hbo, <- Hsh. }
      derive_at H "physics_is_trigger" K1. derive_at H "physics_layer" K2.
      derive_at H "physics_mask" K3. derive_at H "physics_material" K4.
      rewrite Hg2, <- Hg in K1, K2, K3.
      apply (emit_if_true_inj _ _ _ Hg) in K1, K2, K3.
      unfold guard_material in K4. rewrite Hg, Hg2 in K4. simpl in K4.
      split_and!; [congruence | congruence | congruence |].
      by destruct (cat_phys_material r1), (cat_phys_material r2);
        simpl in *; try congruence.
  - intros (Hbo & Hsh & Hd & Hp). apply map_eq. intros k.
    rewrite !encode_lookup.
    assert (Ehb : has_body r1 = has_body r2) by (unfold has_body; by rewrite Hbo).
    assert (Ehs : has_shape r1 = has_shape r2) by (unfold has_shape; by rewrite Hsh).
    assert (Egd : guard_dynamic r1 = guard_dynamic r2)
      by (unfold guard_dynamic; by rewrite Hbo).
    assert (Egp : guard_physics r1 = guard_physics r2)
      by (unfold guard_physics; by rewrite Ehb, Ehs).
    unfold derivation, guard_material.
    rewrite <- Ehb, <- Ehs, <- Egd, <- Egp, <- Hbo, <- Hsh.
    destruct (guard_dynamic r1) eqn:Gd.
    + apply guard_dynamic_spec in Gd. destruct (Hd Gd) as (-> & -> & -> & ->).
      destruct (guard_physics r1) eqn:Gp; [|done].
      apply guard_physics_spec in Gp. by destruct (Hp Gp) as (-> & -> & -> & ->).
    + destruct (guard_physics r1) eqn:Gp; [|done].
      apply guard_physics_spec in Gp. by destruct (Hp Gp) as (-> & -> & -> & ->).
Qed.

(** Two records that differ in a field that is not exported. *)
Example heavy_sphere_same_bag :
  cat_phys_mass heavy_sphere ≠ cat_phys_mass static_sphere
  ∧ encode heavy_sphere = encode static_sphere.
Proof. split; [by vm_compute | by vm_compute]. Qed.

Ltac some_none :=
  repeat match goal with
  | H : is_Some None |- _ => by destruct H
  | H : _ ∨ _ |- _ => destruct H
  | |- is_Some (Some _) => by eexists
  | |- Forall _ _ => constructor
  | |- _ → _ => intro
  | |- _ ∧ _ => split
  | |- Some _ = Some _ => reflexivity
  | |- True => exact I
  | |- _ ∨ _ => first [ left; by eexists | right; by eexists ]
  end.

Lemma key_dependencies_synced r m : key_dependencies (synced r m).
Proof.
  unfold key_dependencies. rewrite !Forall_cons, !Forall_nil.
  repeat key_lookup.
  unfold emit_if, guard_material, guard_physics, guard_dynamic, has_body,
    has_shape.
  destruct (cat_phys_body r), (cat_phys_shape r),
    (match cat_phys_material r with "" => false | _ => true end);
    simpl; some_none.
Qed.

(** After the callback, whatever the object held before: a key of the
    dynamics group is present only beside [physics_body] = "dynamic";
    the three collision keys are present whenever the material, the body
    or the shape key is; and a collision key is present only beside a
    body or a shape key. *)
Theorem update_key_dependencies r obj :
  ∃ obj', update_physics_props r (active obj) = inr (active obj')
    ∧ key_dependencies (props obj').
Proof.
  eexists. split; [apply update_active|]. apply key_dependencies_synced.
Qed.

(** ** How synchronisations compose *)

Lemma put_commute k1 v1 c1 k2 v2 c2 (m : bag) :
  k1 ≠ k2 → put k2 v2 c2 (put k1 v1 c1 m) = put k1 v1 c1 (put k2 v2 c2 m).
Proof.
  intros Hne. apply map_eq. intros k. rewrite !lookup_put.
  repeat case_decide; congruence.
Qed.

Lemma put_put k v1 c1 v2 c2 (m : bag) :
  put k v2 c2 (put k v1 c1 m) = put k v2 c2 m.
Proof.
  apply map_eq. intros k'. rewrite !lookup_put. by case_decide.
Qed.

(** Synchronisations of two different keys commute: the order of the ten
    calls of the callback does not matter. *)
Theorem sync_prop_commute k1 v1 c1 k2 v2 c2 obj :
  k1 ≠ k2 →
  sync_prop k1 v1 c1 obj >>> sync_prop k2 v2 c2
  = sync_prop k2 v2 c2 obj >>> sync_prop k1 v1 c1.
Proof.
  intros Hne. rewrite !sync_prop_ok. simpl. rewrite !sync_prop_ok. simpl.
  by rewrite put_commute.
Qed.

Lemma sync_prop_commute_witness :
  "physics_mass" ≠ "physics_layer"
  ∧ sync_prop "physics_mass" (VFloat 2.5) true {| props := stale_bag |}
      >>> sync_prop "physics_layer" (VInt 1) false
    = sync_prop "physics_layer" (VInt 1) false {| props := stale_bag |}
      >>> sync_prop "physics_mass" (VFloat 2.5) true.
Proof.
  assert (Hne : "physics_mass" ≠ "physics_layer") by discriminate.
  split; [exact Hne|].
  exact (sync_prop_commute "physics_mass" (VFloat 2.5) true
           "physics_layer" (VInt 1) false {| props := stale_bag |} Hne).
Defined.

(** Of two synchronisations of the same key the later one decides: the
    earlier value, or the earlier removal, leaves no trace. *)
Theorem sync_prop_last_wins k v1 c1 v2 c2 obj :
  sync_prop k v1 c1 obj >>> sync_prop k v2 c2 = sync_prop k v2 c2 obj.
Proof.
  rewrite !sync_prop_ok. simpl. rewrite sync_prop_ok. simpl.
  by rewrite put_put.
Qed.

(** Setting a key that the object did not have and then clearing it
    gives the object back. *)
Theorem sync_prop_set_clear k v w obj :
  props obj !! k = None →
  sync_prop k v true obj >>> sync_prop k w false = inr obj.
Proof.
  intros Hk. rewrite sync_prop_ok. cbn [bind]. rewrite sync_prop_ok.
  cbn [props]. rewrite put_put. unfold put. rewrite delete_id by done. by destruct obj.
Qed.

Lemma sync_prop_set_clear_witness :
  props {| props := mesh_only |} !! "physics_mass" = None
  ∧ sync_prop "physics_mass" (VFloat 2.5) true {| props := mesh_only |}
      >>> sync_prop "physics_mass" (VFloat 1) false
    = inr {| props := mesh_only |}.
Proof.
  split; [reflexivity|].
  apply (sync_prop_set_clear "physics_mass" (VFloat 2.5) (VFloat 1)
           {| props := mesh_only |}).
  reflexivity.
Defined.

(** * The panel *)

Ltac not_in H :=
  match type of H with
  | ?P => apply (bool_decide_pack P) in H; vm_compute in H; destruct H
  end.

Ltac shown_iff :=
  split; intros HH;
    first [ in_keys | by eexists | by destruct HH | not_in HH
          | by left | by right | by destruct HH ].

(** The panel and the callback use the same guards: with an active
    object, the body and shape fields are always drawn; each of the seven
    fields of the dynamics and collision groups is drawn exactly when the
    callback exports its key for the object's settings; the material
    field is drawn exactly when there is a body or a shape, also while
    the material is empty and its key is not exported. *)
Theorem panel_matches_export cp context obj :
  object context = Some obj →
  ∃ layout, draw cp context = inr layout
    ∧ Forall (λ kf, kf.2 ∈ all_fields layout) enum_fields
    ∧ Forall (λ kf, kf.2 ∈ all_fields layout
                    ↔ is_Some (encode (cp obj) !! kf.1)) guarded_fields
    ∧ (material_field.2 ∈ all_fields layout ↔ participates (cp obj)).
Proof.
  intros Ho. destruct context as [o]. simpl in Ho. subst o.
  unfold draw; simpl. eexists. split; [reflexivity|].
  unfold enum_fields, guarded_fields, material_field, participates.
  rewrite !Forall_cons, !Forall_nil. simpl.
  rewrite !encode_lookup. unfold derivation. decide_keys.
  unfold emit_if, guard_physics, guard_dynamic, has_body, has_shape.
  destruct (cat_phys_body (cp obj)), (cat_phys_shape (cp obj)); simpl;
    split_and!; try exact I; try in_keys; try shown_iff;
    first [by left | by right].
Qed.

Lemma panel_matches_export_witness :
  object (active {| props := ∅ |}) = Some {| props := ∅ |}
  ∧ ∃ layout, draw (λ _, static_sphere) (active {| props := ∅ |}) = inr layout
    ∧ Forall (λ kf, kf.2 ∈ all_fields layout) enum_fields
    ∧ Forall (λ kf, kf.2 ∈ all_fields layout
                    ↔ is_Some (encode static_sphere !! kf.1)) guarded_fields
    ∧ (material_field.2 ∈ all_fields layout ↔ participates static_sphere).
Proof.
  split; [reflexivity|].
  exact (panel_matches_export (λ _, static_sphere) (active {| props := ∅ |})
           {| props := ∅ |} eq_refl).
Defined.

(** With an active object the panel draws no field twice and only fields
    that the callback synchronises: the two enums alone for an object
    without physics, six fields for a body that is not dynamic or a bare
    shape, all ten for a dynamic body. *)
Theorem panel_fields_once cp context obj :
  object context = Some obj →
  ∃ layout, draw cp context = inr layout
    ∧ NoDup (all_fields layout)
    ∧ all_fields layout ⊆ key_fields.*2
    ∧ length (all_fields layout)
      = (if guard_dynamic (cp obj) then 10
         else if guard_physics (cp obj) then 6 else 2)%nat.
Proof.
  intros Ho. destruct context as [o]. simpl in Ho. subst o.
  unfold draw; simpl. eexists. split; [reflexivity|].
  unfold guard_physics, guard_dynamic, has_body, has_shape.
  destruct (cat_phys_body (cp obj)), (cat_phys_shape (cp obj)); simpl;
    (split; [in_keys | split; [in_keys | reflexivity]]).
Qed.

Lemma panel_fields_once_witness :
  object (active {| props := ∅ |}) = Some {| props := ∅ |}
  ∧ ∃ layout, draw (λ _, dynamic_box) (active {| props := ∅ |}) = inr layout
    ∧ NoDup (all_fields layout)
    ∧ all_fields layout ⊆ key_fields.*2
    ∧ length (all_fields layout)
      = (if guard_dynamic dynamic_box then 10
         else if guard_physics dynamic_box then 6 else 2)%nat.
Proof.
  split; [reflexivity|].
  exact (panel_fields_once (λ _, dynamic_box) (active {| props := ∅ |})
           {| props := ∅ |} eq_refl).
Defined.

(** * Registration *)

#[local] Set Warnings "-clear-no-such-hyp".

Lemma for_each_register cls s :
  NoDup cls → Forall (λ c, c ∉ registered s) cls →
  for_each register_class cls s
  = Done {| registered := list_to_set cls ∪ registered s;
            object_attr := object_attr s |}.
Proof.
  revert s. induction cls as [|c l IH]; intros s Hnd Hfree; simpl.
  - destruct s as [reg a]. simpl. do 2 f_equal. set_solver.
  - apply NoDup_cons in Hnd as [Hc Hnd].
    apply Forall_cons in Hfree as [Hs Hfree].
    unfold register_class at 1. rewrite decide_False by done.
    rewrite IH; [|done|]; simpl.
    + do 2 f_equal. set_solver.
    + rewrite Forall_forall in Hfree. apply Forall_forall.
      intros x Hx. specialize (Hfree x Hx). set_solver.
Qed.

Lemma for_each_unregister l s :
  NoDup l → Forall (λ c, c ∈ registered s) l →
  for_each unregister_class l s
  = Done {| registered := registered s ∖ list_to_set l;
            object_attr := object_attr s |}.
Proof.
  revert s. induction l as [|c l IH]; intros s Hnd Hin; simpl.
  - destruct s as [reg a]. simpl. do 2 f_equal. set_solver.
  - apply NoDup_cons in Hnd as [Hc Hnd].
    apply Forall_cons in Hin as [Hs Hin].
    unfold unregister_class at 1. rewrite decide_True by done.
    rewrite IH; [|done|]; simpl.
    + do 2 f_equal. set_solver.
    + rewrite Forall_forall in Hin. apply Forall_forall.
      intros x Hx. specialize (Hin x Hx). set_solver.
Qed.

Lemma for_each_register_done l s s' :
  for_each register_class l s = Done s' →
  registered s ⊆ registered s' ∧ Forall (λ c, c ∈ registered s') l.
Proof.
  revert s. induction l as [|c l IH]; intros s H; simpl in H.
  - injection H as <-. split; [done | constructor].
  - unfold register_class at 1 in H. case_decide as Hc; [discriminate|].
    apply IH in H as [Hsub Hall]. simpl in Hsub. split; [set_solver|].
    constructor; [set_solver | done].
Qed.

(** Registering and then unregistering gives the editor back, for any
    tuple of distinct classes of which none is registered yet and an
    object type without the attribute; in between, exactly these classes
    are added and the attribute points to the property group. *)
Theorem register_unregister_roundtrip cls s :
  NoDup cls → Forall (λ c, c ∉ registered s) cls → object_attr s = None →
  ∃ s', register_all cls s = Done s'
    ∧ registered s' = list_to_set cls ∪ registered s
    ∧ object_attr s' = Some "CatalystPhysicsSettings"
    ∧ unregister_all cls s' = Done s.
Proof.
  intros Hnd Hfree Hattr. unfold register_all, unregister_all.
  rewrite for_each_register by done. eexists. split; [reflexivity|]. simpl.
  split; [done|]. split; [done|].
  rewrite for_each_unregister; simpl.
  - destruct s as [reg a]. simpl in *. subst a. do 2 f_equal.
    rewrite Forall_forall in Hfree.
    apply set_eq. intros x.
    rewrite elem_of_difference, elem_of_union, !elem_of_list_to_set,
      elem_of_reverse.
    split.
    + by intros [[?|?] ?].
    + intros Hx. split; [by right|]. intros Hin. by apply (Hfree x).
  - by rewrite reverse_Permutation.
  - apply Forall_reverse, Forall_forall. intros x Hx.
    apply elem_of_union. left. by apply elem_of_list_to_set.
Qed.

Lemma register_unregister_roundtrip_witness :
  NoDup classes
  ∧ Forall (λ c, c ∉ registered fresh_registry) classes
  ∧ object_attr fresh_registry = None
  ∧ ∃ s', register fresh_registry = Done s'
      ∧ registered s' = list_to_set classes ∪ registered fresh_registry
      ∧ object_attr s' = Some "CatalystPhysicsSettings"
      ∧ unregister s' = Done fresh_registry.
Proof.
  assert (Hnd : NoDup classes) by in_keys.
  assert (Hfree : Forall (λ c, c ∉ registered fresh_registry) classes) by in_keys.
  split; [exact Hnd|]. split; [exact Hfree|]. split; [reflexivity|].
  exact (register_unregister_roundtrip classes fresh_registry Hnd Hfree eq_refl).
Defined.

(** Registering a second time raises at the first class and leaves the
    registration of the first time as it is. *)
Theorem register_twice_raises c cls s s' :
  register_all (c :: cls) s = Done s' →
  register_all (c :: cls) s' = Raised (AlreadyRegistered c) s'.
Proof.
  unfold register_all. intros H.
  destruct (for_each register_class (c :: cls) s) as [s1|e s1] eqn:E;
    [|discriminate].
  injection H as <-.
  apply for_each_register_done in E as [_ Hall].
  apply Forall_cons in Hall as [Hc _].
  simpl. unfold register_class at 1. simpl. by rewrite decide_True.
Qed.

Lemma register_twice_raises_witness :
  register fresh_registry
  = Done {| registered := list_to_set classes;
            object_attr := Some "CatalystPhysicsSettings" |}
  ∧ register {| registered := list_to_set classes;
                object_attr := Some "CatalystPhysicsSettings" |}
    = Raised (AlreadyRegistered "CatalystPhysicsSettings")
        {| registered := list_to_set classes;
           object_attr := Some "CatalystPhysicsSettings" |}.
Proof.
  assert (H : register fresh_registry
              = Done {| registered := list_to_set classes;
                        object_attr := Some "CatalystPhysicsSettings" |})
    by (vm_compute; reflexivity).
  split; [exact H|].
  exact (register_twice_raises "CatalystPhysicsSettings"
           ["OBJECT_PT_CatalystPhysics"] fresh_registry _ H).
Defined.

(** Unregistering when the last class of the tuple is not registered
    raises at that class, the first to be visited, and changes
    nothing. *)
Theorem unregister_unregistered_raises cls c s :
  c ∉ registered s →
  unregister_all (cls ++ [c]) s = Raised (NotRegistered c) s.
Proof.
  intros Hc. unfold unregister_all. rewrite reverse_snoc. simpl.
  unfold unregister_class at 1. by rewrite decide_False.
Qed.

Lemma unregister_unregistered_raises_witness :
  ("OBJECT_PT_CatalystPhysics" ∉ registered fresh_registry)
  ∧ unregister fresh_registry
    = Raised (NotRegistered "OBJECT_PT_CatalystPhysics") fresh_registry.
Proof.
  assert (Hc : "OBJECT_PT_CatalystPhysics" ∉ registered fresh_registry) by in_keys.
  split; [exact Hc|].
  exact (unregister_unregistered_raises ["CatalystPhysicsSettings"]
           "OBJECT_PT_CatalystPhysics" fresh_registry Hc).
Defined.

(** Registration is not undone when it fails half-way: when the second
    class is refused, the first stays registered and the attribute is
    not set. *)
Theorem register_partial c1 c2 cls s :
  c1 ∉ registered s → c2 ∈ registered s →
  register_all (c1 :: c2 :: cls) s
  = Raised (AlreadyRegistered c2)
      {| registered := {[c1]} ∪ registered s; object_attr := object_attr s |}.
Proof.
  intros H1 H2. unfold register_all. simpl.
  unfold register_class at 1. rewrite decide_False by done.
  unfold register_class at 1. simpl. rewrite decide_True; [done|].
  apply elem_of_union. by right.
Qed.

Lemma register_partial_witness :
  ("CatalystPhysicsSettings" ∉ registered panel_only)
  ∧ ("OBJECT_PT_CatalystPhysics" ∈ registered panel_only)
  ∧ register panel_only
    = Raised (AlreadyRegistered "OBJECT_PT_CatalystPhysics")
        {| registered := {["CatalystPhysicsSettings"]} ∪ registered panel_only;
           object_attr := object_attr panel_only |}.
Proof.
  assert (H1 : "CatalystPhysicsSettings" ∉ registered panel_only) by in_keys.
  assert (H2 : "OBJECT_PT_CatalystPhysics" ∈ registered panel_only) by in_keys.
  split; [exact H1|]. split; [exact H2|].
  exact (register_partial "CatalystPhysicsSettings" "OBJECT_PT_CatalystPhysics"
           [] panel_only H1 H2).
Defined.

(** Unregistration is not undone either: when the attribute is missing,
    the classes have been unregistered by the time the deletion
    raises. *)
Theorem unregister_partial cls s :
  NoDup cls → Forall (λ c, c ∈ registered s) cls → object_attr s = None →
  unregister_all cls s
  = Raised (MissingAttribute "catalyst_physics")
      {| registered := registered s ∖ list_to_set cls; object_attr := None |}.
Proof.
  intros Hnd Hin Hattr. unfold unregister_all.
  rewrite for_each_unregister.
  - simpl. rewrite Hattr. do 2 f_equal.
    apply set_eq. intros x.
    by rewrite !elem_of_difference, !elem_of_list_to_set, elem_of_reverse.
  - by rewrite reverse_Permutation.
  - by apply Forall_reverse.
Qed.

Lemma unregister_partial_witness :
  NoDup classes
  ∧ Forall (λ c, c ∈ registered attr_lost) classes
  ∧ object_attr attr_lost = None
  ∧ unregister attr_lost
    = Raised (MissingAttribute "catalyst_physics")
        {| registered := registered attr_lost ∖ list_to_set classes;
           object_attr := None |}.
Proof.
  assert (Hnd : NoDup classes) by in_keys.
  assert (Hin : Forall (λ c, c ∈ registered attr_lost) classes) by in_keys.
  split; [exact Hnd|]. split; [exact Hin|]. split; [reflexivity|].
  exact (unregister_partial classes attr_lost Hnd Hin eq_refl).
Defined.

(** * The panel and registration *)

Lemma for_each_register_attr l s :
  object_attr (state_of (for_each register_class l s)) = object_attr s.
Proof.
  revert s. induction l as [|c l IH]; intros s; simpl; [done|].
  unfold register_class at 1. case_decide; [done|]. by rewrite IH.
Qed.

Lemma register_all_attr cls s :
  object_attr (state_of (register_all cls s))
  = match register_all cls s with
    | Done _ => Some "CatalystPhysicsSettings"
    | Raised _ _ => object_attr s
    end.
Proof.
  unfold register_all.
  assert (H := for_each_register_attr cls s).
  by destruct (for_each register_class cls s).
Qed.

(** In an editor where the attribute is not set yet, the panel draws
    after [register] exactly when [register] completed and there is an
    active object. It raises [AttributeError] when there is no active
    object, and also, on every object, when [register] raised: the
    attribute is set last and is then missing. *)
Theorem panel_draws_iff_registered cls s cp context :
  object_attr s = None →
  ((∃ layout, panel_draw (state_of (register_all cls s)) cp context = inr layout)
   ↔ (∃ s', register_all cls s = Done s') ∧ is_Some (object context))
  ∧ (panel_draw (state_of (register_all cls s)) cp context
     = inl (AttributeError "catalyst_physics")
     ↔ (∃ e s', register_all cls s = Raised e s') ∨ object context = None).
Proof.
  intros Hattr. unfold panel_draw. rewrite register_all_attr, Hattr.
  destruct context as [[obj|]]; unfold draw; simpl;
    destruct (register_all cls s) as [s'|e s']; simpl; split; split.
  all: try (intros [? ?]; discriminate).
  all: try discriminate.
  all: try (intros [[? ?] [? ?]]; discriminate).
  all: try (intros [(? & ? & ?)|?]; discriminate).
  all: try (intros _; split; by eexists).
  all: try (intros _; by eexists).
  all: try (intros _; by right).
  all: try (intros _; left; by do 2 eexists).
  all: try reflexivity.
Qed.

Lemma panel_draws_iff_registered_witness :
  object_attr fresh_registry = None
  ∧ ((∃ layout, panel_draw (state_of (register fresh_registry))
                  (λ _, dynamic_box) (active {| props := ∅ |}) = inr layout)
     ↔ (∃ s', register fresh_registry = Done s')
       ∧ is_Some (object (active {| props := ∅ |})))
  ∧ (panel_draw (state_of (register fresh_registry))
       (λ _, dynamic_box) (active {| props := ∅ |})
     = inl (AttributeError "catalyst_physics")
     ↔ (∃ e s', register fresh_registry = Raised e s')
       ∨ object (active {| props := ∅ |}) = None).
Proof.
  split; [reflexivity|].
  exact (panel_draws_iff_registered classes fresh_registry (λ _, dynamic_box)
           (active {| props := ∅ |}) eq_refl).
Defined.

(** After the registration that stops at the panel class, the panel
    raises on an active object. *)
Example panel_raises_after_failed_register :
  panel_draw (state_of (register panel_only)) (λ _, dynamic_box)
    (active {| props := ∅ |})
  = inl (AttributeError "catalyst_physics").
Proof. by vm_compute. Qed.
